(** * Cohen's d for two independent samples

    A shallow embedding of the function [cohend] of the effect-size notebook

<<
      def cohend(d1, d2):
          n1, n2 = len(d1), len(d2)
          s1, s2 = var(d1, ddof=1), var(d2, ddof=1)
          s = sqrt(((n1 - 1) * s1 + (n2 - 1) * s2) / (n1 + n2 - 2))
          u1, u2 = mean(d1), mean(d2)
          return (u1 - u2) / s
>>

    with [mean] and [var] from numpy and [sqrt] from math.

    The body is embedded twice, statement by statement.

    Exact arithmetic ([cohend]).  The values are the special values of
    floating-point arithmetic (the two infinities and not-a-number, with
    the rules that produce and propagate them) and the real numbers:
    rounding, overflow, underflow and the sign of zero are left out.  This
    embedding carries the properties that rest on those rules alone (no
    exception, not-a-number on undersized samples and on observations that
    are not finite, the effect of swapping the arguments) and the laws of
    the statistic that hold for real numbers only.

    Binary64 ([Binary64.cohend]).  The values are the binary64 floats of
    the machine, every operation is the correctly rounded one, and the
    reductions of numpy are written out: the pairwise summation of
    [add.reduce] and the two passes of [var].  The interpreter state
    records the warnings numpy issues.  Whatever is stated of the value a
    call returns for given floats is stated in this embedding.

    Effects.  Python statements run in an interpreter state and may raise;
    the body of [cohend] is written in a state-and-exception monad, one bind
    per call that can raise or warn. *)

From Stdlib Require Import Reals Lra Lia ZArith List Permutation String.
From Stdlib Require Floats Uint63.
Import ListNotations.

Open Scope R_scope.

(** * The program in exact arithmetic *)

(** ** Floating-point values *)

Inductive num : Type :=
| Fin (x : R)      (* a finite number *)
| PInf             (* inf *)
| NInf             (* -inf *)
| NaN.             (* nan *)

(** The value of [x / 0] and of [x * inf] for a finite [x]: an infinity with
    the sign of [x], and not-a-number for [x = 0]. *)
Definition signed_inf (x : R) : num :=
  match total_order_T x 0 with
  | inleft (left _) => NInf
  | inleft (right _) => NaN
  | inright _ => PInf
  end.

Definition fneg (a : num) : num :=
  match a with
  | Fin x => Fin (- x)
  | PInf => NInf
  | NInf => PInf
  | NaN => NaN
  end.

Definition fadd (a b : num) : num :=
  match a, b with
  | NaN, _ | _, NaN => NaN
  | Fin x, Fin y => Fin (x + y)
  | PInf, NInf | NInf, PInf => NaN
  | PInf, _ | _, PInf => PInf
  | NInf, _ | _, NInf => NInf
  end.

Definition fsub (a b : num) : num := fadd a (fneg b).

Definition fmul (a b : num) : num :=
  match a, b with
  | NaN, _ | _, NaN => NaN
  | Fin x, Fin y => Fin (x * y)
  | Fin x, PInf | PInf, Fin x => signed_inf x
  | Fin x, NInf | NInf, Fin x => signed_inf (- x)
  | PInf, PInf | NInf, NInf => PInf
  | PInf, NInf | NInf, PInf => NInf
  end.

(** numpy's division of float64 scalars: a zero divisor raises nothing, the
    quotient is an infinity or not-a-number. *)
Definition fdiv (a b : num) : num :=
  match a, b with
  | NaN, _ | _, NaN => NaN
  | Fin x, Fin y =>
      if Req_dec_T y 0 then signed_inf x else Fin (x / y)
  | Fin _, (PInf | NInf) => Fin 0
  | (PInf | NInf), (PInf | NInf) => NaN
  | PInf, Fin y => if Rlt_dec y 0 then NInf else PInf
  | NInf, Fin y => if Rlt_dec y 0 then PInf else NInf
  end.

(** A Python int used in float arithmetic. *)
Definition of_int (z : Z) : num := Fin (IZR z).

(** [len] of a sequence. *)
Definition len {A : Type} (l : list A) : Z := Z.of_nat (List.length l).

(** ** Interpreter state, exceptions, and the monad of statements *)

(** The state a cell of the notebook works on: the words of numpy's global
    random generator (set by [seed], advanced by [randn]) and the lines
    printed so far. *)
Record World : Type := mkWorld {
  random_state : list Z;
  stdout : list string
}.

Inductive exn : Type :=
| ValueError (msg : string).

Inductive outcome (A : Type) : Type :=
| Ok (v : A)
| Raise (e : exn).
Arguments Ok {A} v.
Arguments Raise {A} e.

Definition M (A : Type) : Type := World -> outcome A * World.

Definition ret {A : Type} (v : A) : M A := fun w => (Ok v, w).

Definition raise {A : Type} (e : exn) : M A := fun w => (Raise e, w).

Definition bind {A B : Type} (m : M A) (k : A -> M B) : M B :=
  fun w =>
    match m w with
    | (Ok v, w') => k v w'
    | (Raise e, w') => (Raise e, w')
    end.

Notation "x <- m ;; k" := (bind m (fun x => k))
  (at level 61, m at next level, right associativity).

(** [returns m v]: in every state, [m] evaluates to [v] and leaves the state
    as it found it.  [raises m e] likewise for an exception. *)
Definition returns {A : Type} (m : M A) (v : A) : Prop :=
  forall w, m w = (Ok v, w).

Definition raises {A : Type} (m : M A) (e : exn) : Prop :=
  forall w, m w = (Raise e, w).

(** ** The library functions the notebook imports *)

Module numpy.

(** [sum] of a one-dimensional float array: accumulation from zero.  numpy
    adds long arrays in blocks; addition in this arithmetic is commutative
    and associative (lemmas [fadd_comm], [fadd_assoc]), so the grouping is
    immaterial here. *)
Definition sum (a : list num) : num := fold_left fadd a (Fin 0).

(** [mean(a)]: the sum of the elements divided by their number; for an
    empty array this is [0 / 0]. *)
Definition mean (a : list num) : num := fdiv (sum a) (of_int (len a)).

(** [var(a, ddof)]: the mean of the array is subtracted from every element,
    the differences are squared and summed, and the sum is divided by
    [max(N - ddof, 0)], [N] the number of elements. *)
Definition var (a : list num) (ddof : Z) : num :=
  let arrmean := fdiv (sum a) (of_int (len a)) in
  let x := map (fun e => fsub e arrmean) a in
  let x := map (fun e => fmul e e) x in
  fdiv (sum x) (of_int (Z.max (len a - ddof) 0)).

End numpy.

Module math.

(** [math.sqrt(x)]: raises [ValueError] on a negative argument, minus
    infinity included; passes [inf] and [nan] through. *)
Definition sqrt (x : num) : M num :=
  match x with
  | Fin r =>
      if Rlt_dec r 0 then raise (ValueError "math domain error")
      else ret (Fin (R_sqrt.sqrt r))
  | PInf => ret PInf
  | NInf => raise (ValueError "math domain error")
  | NaN => ret NaN
  end.

End math.

(** ** The function under study *)

Definition cohend (d1 d2 : list num) : M num :=
  (* calculate the size of samples *)
  let n1 := len d1 in
  let n2 := len d2 in
  (* calculate the variance of the samples *)
  let s1 := numpy.var d1 1 in
  let s2 := numpy.var d2 1 in
  (* calculate the pooled standard deviation *)
  s <- math.sqrt (fdiv (fadd (fmul (of_int (n1 - 1)) s1)
                             (fmul (of_int (n2 - 1)) s2))
                       (of_int (n1 + n2 - 2))) ;;
  (* calculate the means of the samples *)
  let u1 := numpy.mean d1 in
  let u2 := numpy.mean d2 in
  (* calculate the effect size *)
  ret (fdiv (fsub u1 u2) s).

(** ** The statistics of the specification, over the reals *)

Definition Rsum (l : list R) : R := fold_right Rplus 0 l.

(** Arithmetic mean. *)
Definition sample_mean (l : list R) : R := Rsum l / INR (List.length l).

(** Sum of the squared deviations from the mean. *)
Definition sum_sq_dev (l : list R) : R :=
  Rsum (map (fun x => (x - sample_mean l) * (x - sample_mean l)) l).

(** Bessel-corrected sample variance: divisor [n - 1]. *)
Definition sample_var (l : list R) : R :=
  sum_sq_dev l / (INR (List.length l) - 1).

Definition pooled_var (d1 d2 : list R) : R :=
  ((INR (List.length d1) - 1) * sample_var d1
   + (INR (List.length d2) - 1) * sample_var d2)
  / (INR (List.length d1) + INR (List.length d2) - 2).

Definition pooled_sd (d1 d2 : list R) : R := sqrt (pooled_var d1 d2).

(** The statistic as the specification writes it. *)
Definition cohen_d (d1 d2 : list R) : R :=
  (sample_mean d1 - sample_mean d2) / pooled_sd d1 d2.

(** A sample of real observations as the array of floats handed to the
    program. *)
Definition sample (l : list R) : list num := map Fin l.

(** Transformations of a sample used by the invariance laws. *)
Definition scale (k : R) (l : list R) : list R := map (fun x => k * x) l.
Definition shift (c : R) (l : list R) : list R := map (fun x => x + c) l.

(** The values a sum of squares can take: a non-negative number, plus
    infinity or not-a-number. *)
Definition nonneg (a : num) : Prop :=
  match a with
  | Fin x => 0 <= x
  | PInf | NaN => True
  | NInf => False
  end.

(** Sample inputs for the examples. *)
Definition a13 : list R := [1; 3].
Definition a02 : list R := [0; 2].
Definition a5 : list R := [5].
Definition w0 : World := mkWorld [] [].

(** ** The cell that calls [cohend] *)

(** [k * a] and [a + c] for an array [a] and Python ints [k], [c]:
    element by element. *)
Definition array_scale (k : Z) (a : list num) : list num :=
  map (fun x => fmul (of_int k) x) a.

Definition array_shift (a : list num) (c : Z) : list num :=
  map (fun x => fadd x (of_int c)) a.

(** [print(line)]: one more line on standard output. *)
Definition print (line : string) : M unit :=
  fun w => (Ok tt, mkWorld (random_state w) (stdout w ++ [line])).

Section Cell.

(** numpy's [seed] and [randn], and the rendering of a float by ['%.3f'],
    are library code: the cell is written over them. *)
Variable seed : Z -> M unit.
Variable randn : Z -> M (list num).
Variable format_3f : num -> string.

(**
<<
      seed(1)
      data1 = 10 * randn(10000) + 60
      data2 = 10 * randn(10000) + 55
      d = cohend(data1, data2)
      print('Cohens d: %.3f' % d)
>>
    The value of the cell is the [d] it leaves behind. *)
Definition effect_size_cell : M num :=
  (* seed random number generator *)
  _ <- seed 1 ;;
  (* prepare data *)
  z1 <- randn 10000 ;;
  let data1 := array_shift (array_scale 10 z1) 60 in
  z2 <- randn 10000 ;;
  let data2 := array_shift (array_scale 10 z2) 55 in
  (* calculate cohen's d *)
  d <- cohend data1 data2 ;;
  _ <- print ("Cohens d: " ++ format_3f d) ;;
  ret d.

End Cell.

(** ** Classes of values *)

Definition is_finite (a : num) : Prop :=
  match a with
  | Fin _ => True
  | _ => False
  end.

(** * The program in binary64 arithmetic *)

Module Binary64.

Import PrimFloat.
Local Open Scope float_scope.

(** ** The warnings numpy issues *)

(** The floating-point errors numpy reports under its default settings
    ([divide], [over] and [invalid] set to warn, [under] ignored). *)
Inductive fp_error : Type :=
| DivideByZero
| Overflow
| Invalid.

(** A [RuntimeWarning]: a floating-point error met during one numpy
    operation, or one of the two messages of [var] and [mean]. *)
Inductive warning : Type :=
| FloatingPoint (e : fp_error)
| DegreesOfFreedom        (* Degrees of freedom <= 0 for slice *)
| MeanOfEmptySlice.       (* Mean of empty slice. *)

(** The error flags one numpy operation raises. *)
Record flags : Type := mkFlags {
  divide : bool;
  over : bool;
  invalid : bool
}.

Definition no_flags : flags := mkFlags false false false.

Definition join (a b : flags) : flags :=
  mkFlags (divide a || divide b) (over a || over b) (invalid a || invalid b).

(** The flags of [x + y], [x - y] and [x * y] with result [r]: the result
    overflows, or is not-a-number though no operand is. *)
Definition flags_arith (x y r : float) : flags :=
  mkFlags false
          (is_infinity r && is_finite x && is_finite y)
          (is_nan r && negb (is_nan x || is_nan y)).

(** The flags of [x / y] with result [r]. *)
Definition flags_div (x y r : float) : flags :=
  mkFlags (is_zero y && is_finite x && negb (is_zero x))
          (is_infinity r && is_finite x && is_finite y && negb (is_zero y))
          (is_nan r && negb (is_nan x || is_nan y)).

(** The warnings issued at the end of an operation, in numpy's order. *)
Definition warnings_of (f : flags) : list warning :=
  (if divide f then [FloatingPoint DivideByZero] else [])
  ++ (if over f then [FloatingPoint Overflow] else [])
  ++ (if invalid f then [FloatingPoint Invalid] else []).

(** A float with the flags raised while it was computed. *)
Definition flagged : Type := (float * flags)%type.

Definition clean (x : float) : flagged := (x, no_flags).

Definition add_flagged (a b : flagged) : flagged :=
  let r := fst a + fst b in
  (r, join (join (snd a) (snd b)) (flags_arith (fst a) (fst b) r)).

(** ** Interpreter state and the monad of statements *)

(** The random generator, standard output, and the warnings issued so
    far. *)
Record Interp : Type := mkInterp {
  generator : list Z;
  output : list string;
  warned : list warning
}.

Definition warn (ws : list warning) (st : Interp) : Interp :=
  mkInterp (generator st) (output st) (warned st ++ ws).

Definition B (A : Type) : Type := Interp -> outcome A * Interp.

Definition ret {A : Type} (v : A) : B A := fun st => (Ok v, st).

Definition raise {A : Type} (e : exn) : B A := fun st => (Raise e, st).

Definition bind {A C : Type} (m : B A) (k : A -> B C) : B C :=
  fun st =>
    match m st with
    | (Ok v, st') => k v st'
    | (Raise e, st') => (Raise e, st')
    end.

(** A numpy operation: a value and the warnings issued on the way. *)
Definition W (A : Type) : Type := (A * list warning)%type.

Definition retW {A : Type} (v : A) : W A := (v, []).

Definition bindW {A C : Type} (m : W A) (k : A -> W C) : W C :=
  (fst (k (fst m)), snd m ++ snd (k (fst m))).

Definition call {A : Type} (m : W A) : B A :=
  fun st => (Ok (fst m), warn (snd m) st).

(** [yields m v]: in every state, [m] returns [v]. *)
Definition yields {A : Type} (m : B A) (v : A) : Prop :=
  forall st, fst (m st) = Ok v.

(** ** Python ints as floats *)

(** Conversion of a Python int (below [2^63] in magnitude) to float64:
    correctly rounded. *)
Definition of_int (z : Z) : float :=
  if (z <? 0)%Z then - of_uint63 (Uint63.of_Z (- z))
  else of_uint63 (Uint63.of_Z z).

(** ** numpy *)

Module numpy.

Section Pairwise.

Context {T : Type} (add : T -> T -> T) (zero : T).

(** [r[j] += a[i + j]] for the eight accumulators. *)
Fixpoint add_lanes (r b : list T) : list T :=
  match r, b with
  | x :: r', y :: b' => add x y :: add_lanes r' b'
  | _, _ => r
  end.

Fixpoint lanes (blocks : nat) (r rest : list T) : list T * list T :=
  match blocks with
  | O => (r, rest)
  | S k => lanes k (add_lanes r (firstn 8 rest)) (skipn 8 rest)
  end.

(** Arrays of 8 to 128 elements: eight running sums over the blocks of
    eight, combined pairwise, then the elements left over. *)
Definition block_sum (a : list T) : T :=
  let n := List.length a in
  let '(r, rest) := lanes ((n - n mod 8) / 8 - 1) (firstn 8 a) (skipn 8 a) in
  match r with
  | [r0; r1; r2; r3; r4; r5; r6; r7] =>
      fold_left add rest
        (add (add (add r0 r1) (add r2 r3)) (add (add r4 r5) (add r6 r7)))
  | _ => zero
  end.

(** numpy's pairwise summation of a contiguous array: a plain loop below 8
    elements, [block_sum] up to 128, and above that the two halves (the
    first a multiple of 8 long) summed apart.  [fuel] bounds the depth of
    the halving; the length of the array is more than enough. *)
Fixpoint pairwise_sum (fuel : nat) (a : list T) : T :=
  let n := List.length a in
  if (n <? 8)%nat then fold_left add a zero
  else if (n <=? 128)%nat then block_sum a
  else match fuel with
       | O => block_sum a
       | S f =>
           let n2 := (n / 2)%nat in
           let n2 := (n2 - n2 mod 8)%nat in
           add (pairwise_sum f (firstn n2 a)) (pairwise_sum f (skipn n2 a))
       end.

End Pairwise.

(** The value of [add.reduce(a)]: the pairwise sum added to the initial
    zero.  (Releases of numpy that start from [-0.0] differ in the sign of
    a sum that is zero, and in nothing else.) *)
Definition sum (a : list float) : float :=
  0 + pairwise_sum PrimFloat.add 0 (List.length a) a.

(** The flags raised by the additions of [add.reduce(a)]. *)
Definition sum_flags (a : list float) : flags :=
  snd (add_flagged (clean 0)
         (pairwise_sum add_flagged (clean 0) (List.length a) (map clean a))).

Definition add_reduce (a : list float) : W float :=
  (sum a, warnings_of (sum_flags a)).

(** Operations on scalars. *)
Definition add (x y : float) : W float :=
  (x + y, warnings_of (flags_arith x y (x + y))).

Definition subtract (x y : float) : W float :=
  (x - y, warnings_of (flags_arith x y (x - y))).

Definition multiply (x y : float) : W float :=
  (x * y, warnings_of (flags_arith x y (x * y))).

Definition true_divide (x y : float) : W float :=
  (x / y, warnings_of (flags_div x y (x / y))).

(** Operations on an array, element by element: one round of warnings for
    the whole array. *)
Definition subtract_scalar (a : list float) (m : float) : W (list float) :=
  (map (fun e => e - m) a,
   warnings_of
     (fold_left join (map (fun e => flags_arith e m (e - m)) a) no_flags)).

Definition square (x : list float) : W (list float) :=
  (map (fun e => e * e) x,
   warnings_of
     (fold_left join (map (fun e => flags_arith e e (e * e)) x) no_flags)).

(** [mean(a)]. *)
Definition mean (a : list float) : W float :=
  let n := len a in
  bindW (if (n =? 0)%Z then (tt, [MeanOfEmptySlice]) else retW tt) (fun _ =>
  bindW (add_reduce a) (fun ret =>
  true_divide ret (of_int n))).

(** [var(a, ddof)]. *)
Definition var (a : list float) (ddof : Z) : W float :=
  let rcount := len a in
  bindW (if (ddof >=? rcount)%Z then (tt, [DegreesOfFreedom]) else retW tt)
        (fun _ =>
  bindW (add_reduce a) (fun arrmean =>
  bindW (true_divide arrmean (of_int rcount)) (fun arrmean =>
  bindW (subtract_scalar a arrmean) (fun x =>
  bindW (square x) (fun x =>
  bindW (add_reduce x) (fun ret =>
  true_divide ret (of_int (Z.max (rcount - ddof) 0)))))))).

End numpy.

(** ** math *)

Module math.

(** [math.sqrt(x)]: [ValueError] on a negative argument; correctly
    rounded otherwise. *)
Definition sqrt (x : float) : B float :=
  if x <? 0 then raise (ValueError "math domain error")
  else ret (PrimFloat.sqrt x).

End math.

(** ** The function under study *)

Definition cohend (d1 d2 : list float) : B float :=
  (* calculate the size of samples *)
  let n1 := len d1 in
  let n2 := len d2 in
  (* calculate the variance of the samples *)
  bind (call (numpy.var d1 1)) (fun s1 =>
  bind (call (numpy.var d2 1)) (fun s2 =>
  (* calculate the pooled standard deviation *)
  bind (call (numpy.multiply (of_int (n1 - 1)) s1)) (fun t1 =>
  bind (call (numpy.multiply (of_int (n2 - 1)) s2)) (fun t2 =>
  bind (call (numpy.add t1 t2)) (fun t =>
  bind (call (numpy.true_divide t (of_int (n1 + n2 - 2)))) (fun q =>
  bind (math.sqrt q) (fun s =>
  (* calculate the means of the samples *)
  bind (call (numpy.mean d1)) (fun u1 =>
  bind (call (numpy.mean d2)) (fun u2 =>
  (* calculate the effect size *)
  bind (call (numpy.subtract u1 u2)) (fun du =>
  call (numpy.true_divide du s))))))))))).

(** ** The values of the body's variables *)

(** [mean(a)] and [var(a, ddof=1)] as values. *)
Definition mean_of (a : list float) : float := fst (numpy.mean a).

Definition var_of (a : list float) : float := fst (numpy.var a 1).

(** The quantity under the square root, and [s]. *)
Definition pooled_variance (d1 d2 : list float) : float :=
  (of_int (len d1 - 1) * var_of d1 + of_int (len d2 - 1) * var_of d2)
  / of_int (len d1 + len d2 - 2).

Definition pooled_std (d1 d2 : list float) : float :=
  PrimFloat.sqrt (pooled_variance d1 d2).

(** The value a call returns and the warnings it issues, in the order of
    the body (lemma [cohend_run]). *)
Definition cohend_value (d1 d2 : list float) : float :=
  (mean_of d1 - mean_of d2) / pooled_std d1 d2.

Definition cohend_warnings (d1 d2 : list float) : list warning :=
  let t1 := of_int (len d1 - 1) * var_of d1 in
  let t2 := of_int (len d2 - 1) * var_of d2 in
  snd (numpy.var d1 1)
  ++ snd (numpy.var d2 1)
  ++ snd (numpy.multiply (of_int (len d1 - 1)) (var_of d1))
  ++ snd (numpy.multiply (of_int (len d2 - 1)) (var_of d2))
  ++ snd (numpy.add t1 t2)
  ++ snd (numpy.true_divide (t1 + t2) (of_int (len d1 + len d2 - 2)))
  ++ snd (numpy.mean d1)
  ++ snd (numpy.mean d2)
  ++ snd (numpy.subtract (mean_of d1) (mean_of d2))
  ++ snd (numpy.true_divide (mean_of d1 - mean_of d2) (pooled_std d1 d2)).

(** ** The statistic as the specification writes it *)

(** Bessel-corrected sample variance: divisor [n - 1]. *)
Definition bessel_var (a : list float) : float :=
  numpy.sum (map (fun x => (x - mean_of a) * (x - mean_of a)) a)
  / of_int (len a - 1).

(** ** Classes of values, read off the representation *)

(** Not negative: a zero of positive sign, a positive number, plus
    infinity, or not-a-number. *)
Definition nonneg_spec (x : SpecFloat.spec_float) : Prop :=
  match x with
  | SpecFloat.S754_nan => True
  | SpecFloat.S754_zero s
  | SpecFloat.S754_infinity s
  | SpecFloat.S754_finite s _ _ => s = false
  end.

Definition nonneg (x : float) : Prop := nonneg_spec (FloatOps.Prim2SF x).

(** Not-a-number, or of sign [s] ([true] for minus). *)
Definition signed (s : bool) (r : SpecFloat.spec_float) : Prop :=
  match r with
  | SpecFloat.S754_nan => True
  | SpecFloat.S754_zero s'
  | SpecFloat.S754_infinity s'
  | SpecFloat.S754_finite s' _ _ => s' = s
  end.

(** The real number a finite float stands for (zero for the others). *)
Definition value (x : float) : R :=
  match FloatOps.Prim2SF x with
  | SpecFloat.S754_finite s m e =>
      ((if s then -1 else 1) * IZR (Zpos m) * powerRZ 2 e)%R
  | _ => 0%R
  end.

(** [k * a] and [a + c] on an array, as the caller computes them. *)
Definition scale (k : float) (a : list float) : list float :=
  map (fun x => k * x) a.

Definition shift (c : float) (a : list float) : list float :=
  map (fun x => x + c) a.


(** The floats that Python reads from [0.1] and [0.3]. *)
Definition tenth : float := 0x1.999999999999ap-4.

Definition three_tenths : float := 0x1.3333333333333p-2.

Definition pow2 (e : Z) : float := FloatOps.Z.ldexp 1 e.

End Binary64.

(** * Exact arithmetic: lemmas *)

(** ** Special values *)

Lemma signed_inf_0 : signed_inf 0 = NaN.
Proof.
  unfold signed_inf. destruct (total_order_T 0 0) as [[H | H] | H]; auto; lra.
Qed.



Lemma fdiv_Fin x y : y <> 0 -> fdiv (Fin x) (Fin y) = Fin (x / y).
Proof.
  intros Hy. simpl. destruct (Req_dec_T y 0); [contradiction | reflexivity].
Qed.

Lemma fdiv_Fin_0 x : fdiv (Fin x) (Fin 0) = signed_inf x.
Proof.
  simpl. destruct (Req_dec_T 0 0); [reflexivity | contradiction].
Qed.

Lemma fadd_NaN_l a : fadd NaN a = NaN.
Proof. reflexivity. Qed.

Lemma fadd_NaN_r a : fadd a NaN = NaN.
Proof. destruct a; reflexivity. Qed.

Lemma fmul_NaN_r a : fmul a NaN = NaN.
Proof. destruct a; reflexivity. Qed.

Lemma fdiv_NaN_l a : fdiv NaN a = NaN.
Proof. reflexivity. Qed.

Lemma fdiv_NaN_r a : fdiv a NaN = NaN.
Proof. destruct a; reflexivity. Qed.

Lemma fadd_comm a b : fadd a b = fadd b a.
Proof.
  destruct a, b; simpl; try reflexivity. f_equal. lra.
Qed.

Lemma fadd_assoc a b c : fadd a (fadd b c) = fadd (fadd a b) c.
Proof.
  destruct a, b, c; simpl; try reflexivity. f_equal. lra.
Qed.

Lemma fsub_Fin x y : fsub (Fin x) (Fin y) = Fin (x - y).
Proof. reflexivity. Qed.


(** ** Monad steps *)


Lemma returns_not_raises {A : Type} (m : M A) (v : A) (e : exn) :
  returns m v -> ~ raises m e.
Proof.
  intros Hv He. specialize (Hv w0). specialize (He w0).
  rewrite Hv in He. discriminate.
Qed.

(** ** numpy's reductions on real samples *)












(** ** Signs of the statistics *)





(** ** [cohend] on samples of at least two observations *)




(** ** Samples of fewer than two observations *)

Lemma var_short (a : list num) :
  (List.length a < 2)%nat -> numpy.var a 1 = NaN.
Proof.
  intros Hn. destruct a as [| x [| y a]]; [| | simpl in Hn; lia].
  - unfold numpy.var, numpy.sum, of_int, len.
    change (fdiv (Fin 0) (Fin 0) = NaN).
    rewrite fdiv_Fin_0. apply signed_inf_0.
  - unfold numpy.var, numpy.sum, of_int, len.
    change (Z.max (Z.of_nat (List.length [x]) - 1) 0) with 0%Z.
    change (IZR (Z.of_nat (List.length [x]))) with 1.
    destruct x as [r | | |]; cbn [map fold_left].
    + cbn [fadd]. rewrite fdiv_Fin by lra. rewrite fsub_Fin.
      cbn [fmul fadd]. rewrite fdiv_Fin_0.
      replace (r - (0 + r) / 1) with 0 by lra.
      replace (0 + 0 * 0) with 0 by lra. apply signed_inf_0.
    + cbn [fadd fdiv]. destruct (Rlt_dec 1 0); [lra | reflexivity].
    + cbn [fadd fdiv]. destruct (Rlt_dec 1 0); [lra | reflexivity].
    + reflexivity.
Qed.

Lemma cohend_short_l (d1 d2 : list num) :
  (List.length d1 < 2)%nat -> cohend d1 d2 = ret NaN.
Proof.
  intros H. unfold cohend. rewrite (var_short d1 H).
  unfold of_int at 1. rewrite fmul_NaN_r, fadd_NaN_l, fdiv_NaN_l.
  cbn [math.sqrt]. unfold bind, ret. rewrite fdiv_NaN_r. reflexivity.
Qed.

Lemma cohend_short_r (d1 d2 : list num) :
  (List.length d2 < 2)%nat -> cohend d1 d2 = ret NaN.
Proof.
  intros H. unfold cohend. rewrite (var_short d2 H).
  rewrite fmul_NaN_r, fadd_NaN_r, fdiv_NaN_l.
  cbn [math.sqrt]. unfold bind, ret. rewrite fdiv_NaN_r. reflexivity.
Qed.

(** ** No call raises *)

Lemma signed_inf_nonneg x : 0 <= x -> nonneg (signed_inf x).
Proof.
  intros Hx. unfold signed_inf.
  destruct (total_order_T x 0) as [[H | H] | H]; simpl; auto; lra.
Qed.

Lemma nonneg_fadd a b : nonneg a -> nonneg b -> nonneg (fadd a b).
Proof.
  destruct a, b; simpl; auto; try contradiction. lra.
Qed.

Lemma nonneg_square a : nonneg (fmul a a).
Proof.
  destruct a as [x | | |]; simpl; auto.
  pose proof (Rle_0_sqr x) as H. unfold Rsqr in H. exact H.
Qed.

Lemma nonneg_fmul_count c a : 0 <= c -> nonneg a -> nonneg (fmul (Fin c) a).
Proof.
  intros Hc. destruct a as [x | | |]; simpl; auto; try contradiction.
  - intros Hx. now apply Rmult_le_pos.
  - intros _. now apply signed_inf_nonneg.
Qed.

Lemma nonneg_fdiv_count a c : nonneg a -> 0 <= c -> nonneg (fdiv a (Fin c)).
Proof.
  intros Ha Hc. destruct a as [x | | |]; simpl in *; auto; try contradiction.
  - destruct (Req_dec_T c 0) as [E | E].
    + now apply signed_inf_nonneg.
    + simpl. apply Rmult_le_pos; [exact Ha |].
      left. apply Rinv_0_lt_compat. lra.
  - destruct (Rlt_dec c 0); [lra | exact I].
Qed.

Create HintDb fnum.
#[local] Hint Resolve signed_inf_nonneg nonneg_fadd nonneg_square
  nonneg_fmul_count nonneg_fdiv_count : fnum.

Lemma nonneg_fold (l : list num) (acc : num) :
  Forall nonneg l -> nonneg acc -> nonneg (fold_left fadd l acc).
Proof.
  intros Hl. revert acc. induction Hl as [| x l Hx _ IH]; intros acc Ha.
  - exact Ha.
  - simpl. apply IH. auto with fnum.
Qed.

Lemma var_nonneg (a : list num) (ddof : Z) : nonneg (numpy.var a ddof).
Proof.
  unfold numpy.var. apply nonneg_fdiv_count.
  - unfold numpy.sum. apply nonneg_fold; [| simpl; lra].
    rewrite map_map. apply Forall_forall. intros y Hy.
    apply in_map_iff in Hy. destruct Hy as (x & <- & _).
    auto with fnum.
  - apply IZR_le. lia.
Qed.

Lemma sqrt_nonneg_returns (a : num) :
  nonneg a -> exists v, math.sqrt a = ret v.
Proof.
  destruct a as [x | | |]; simpl; intros H; try contradiction.
  - destruct (Rlt_dec x 0); [lra |]. now eexists.
  - now eexists.
  - now eexists.
Qed.

(** X1.  The exception of [math.sqrt] is out of reach: on every pair of
    arrays, whatever their sizes and entries (infinities and not-a-number
    included), [cohend] returns a value. *)
Lemma cohend_never_raises (d1 d2 : list num) :
  exists v, returns (cohend d1 d2) v.
Proof.
  destruct (Nat.lt_ge_cases (List.length d1) 2) as [H1 | H1].
  { exists NaN. intros w. now rewrite cohend_short_l. }
  destruct (Nat.lt_ge_cases (List.length d2) 2) as [H2 | H2].
  { exists NaN. intros w. now rewrite cohend_short_r. }
  unfold cohend.
  destruct (sqrt_nonneg_returns
              (fdiv (fadd (fmul (of_int (len d1 - 1)) (numpy.var d1 1))
                          (fmul (of_int (len d2 - 1)) (numpy.var d2 1)))
                    (of_int (len d1 + len d2 - 2)))) as [s Hs].
  - assert (C1 : 0 <= IZR (len d1 - 1)) by (apply IZR_le; unfold len; lia).
    assert (C2 : 0 <= IZR (len d2 - 1)) by (apply IZR_le; unfold len; lia).
    assert (C : 0 <= IZR (len d1 + len d2 - 2))
      by (apply IZR_le; unfold len; lia).
    pose proof (var_nonneg d1 1) as V1. pose proof (var_nonneg d2 1) as V2.
    unfold of_int. auto with fnum.
  - rewrite Hs. eexists. intros w. reflexivity.
Qed.

(** ** Scaling and translation of a sample *)

Lemma length_scale k l : List.length (scale k l) = List.length l.
Proof. apply length_map. Qed.


Lemma Rsum_scale k l : Rsum (scale k l) = k * Rsum l.
Proof.
  induction l as [| x l IH]; simpl; [lra | rewrite IH; lra].
Qed.


Lemma sample_mean_scale k l : sample_mean (scale k l) = k * sample_mean l.
Proof.
  unfold sample_mean. rewrite length_scale, Rsum_scale. unfold Rdiv. ring.
Qed.


Lemma Rsum_sq_scale k m l :
  Rsum (map (fun x => (x - k * m) * (x - k * m)) (scale k l))
  = k * k * Rsum (map (fun x => (x - m) * (x - m)) l).
Proof.
  induction l as [| x l IH]; [simpl; lra |].
  change ((k * x - k * m) * (k * x - k * m)
          + Rsum (map (fun x => (x - k * m) * (x - k * m)) (scale k l))
          = k * k * ((x - m) * (x - m)
                     + Rsum (map (fun x => (x - m) * (x - m)) l))).
  rewrite IH. ring.
Qed.


Lemma sum_sq_dev_scale k l : sum_sq_dev (scale k l) = k * k * sum_sq_dev l.
Proof.
  unfold sum_sq_dev. rewrite sample_mean_scale. apply Rsum_sq_scale.
Qed.


Lemma sample_var_scale k l : sample_var (scale k l) = k * k * sample_var l.
Proof.
  unfold sample_var. rewrite length_scale, sum_sq_dev_scale.
  unfold Rdiv. ring.
Qed.


Lemma pooled_var_scale k d1 d2 :
  pooled_var (scale k d1) (scale k d2) = k * k * pooled_var d1 d2.
Proof.
  unfold pooled_var. rewrite !length_scale, !sample_var_scale.
  unfold Rdiv. ring.
Qed.

Lemma pooled_sd_scale k d1 d2 :
  0 < k -> pooled_sd (scale k d1) (scale k d2) = k * pooled_sd d1 d2.
Proof.
  intros Hk. unfold pooled_sd. rewrite pooled_var_scale.
  rewrite sqrt_mult_alt by nra. rewrite sqrt_square by lra. reflexivity.
Qed.




(** ** The example samples *)


Lemma sample_mean_a13 : sample_mean a13 = 2.
Proof. unfold sample_mean, a13. simpl. lra. Qed.

Lemma sample_mean_a02 : sample_mean a02 = 1.
Proof. unfold sample_mean, a02. simpl. lra. Qed.

Lemma sample_var_a13 : sample_var a13 = 2.
Proof.
  unfold sample_var, sum_sq_dev. rewrite sample_mean_a13.
  unfold a13. simpl. lra.
Qed.

Lemma sample_var_a02 : sample_var a02 = 2.
Proof.
  unfold sample_var, sum_sq_dev. rewrite sample_mean_a02.
  unfold a02. simpl. lra.
Qed.

Lemma pooled_var_a13_a02 : pooled_var a13 a02 = 2.
Proof.
  unfold pooled_var. rewrite sample_var_a13, sample_var_a02.
  unfold a13, a02. simpl. lra.
Qed.

(** The statistic of [a13] and [a02] measured in another unit. *)
Lemma cohen_d_a13_a02_scaled (k : R) :
  0 < k ->
  0 < pooled_var (scale k a13) (scale k a02)
  /\ cohen_d (scale k a13) (scale k a02) = 1 / sqrt 2.
Proof.
  intros Hk.
  assert (Hs : 0 < sqrt 2) by (apply sqrt_lt_R0; lra).
  split.
  - rewrite pooled_var_scale, pooled_var_a13_a02. nra.
  - unfold cohen_d. rewrite !sample_mean_scale, pooled_sd_scale by exact Hk.
    unfold pooled_sd. rewrite pooled_var_a13_a02.
    rewrite sample_mean_a13, sample_mean_a02. field. lra.
Qed.

(** * The claims settled in exact arithmetic *)

(** C2, as stated, fails: on a sample of one observation [cohend] raises
    nothing and returns not-a-number. *)
Lemma cohend_undersized_counterexample :
  returns (cohend (sample a5) (sample a13)) NaN
  /\ forall e, ~ raises (cohend (sample a5) (sample a13)) e.
Proof.
  assert (H : returns (cohend (sample a5) (sample a13)) NaN).
  { intros w. rewrite cohend_short_l by (simpl; lia). reflexivity. }
  split; [exact H |].
  intros e. now apply returns_not_raises with (v := NaN).
Qed.

(** C2, amended.  For every input where either sample has fewer than two
    observations, or where [n1 + n2 - 2 <= 0], [cohend] raises no error: it
    returns not-a-number. *)
Theorem cohend_undersized_nan (d1 d2 : list num) :
  (List.length d1 < 2)%nat \/ (List.length d2 < 2)%nat
  \/ (len d1 + len d2 - 2 <= 0)%Z ->
  returns (cohend d1 d2) NaN.
Proof.
  intros H w.
  assert (H' : (List.length d1 < 2)%nat \/ (List.length d2 < 2)%nat)
    by (unfold len in H; lia).
  destruct H' as [H1 | H2].
  - now rewrite cohend_short_l.
  - now rewrite cohend_short_r.
Qed.

Lemma cohend_undersized_nan_witness :
  returns (cohend (sample a13) (sample a5)) NaN.
Proof.
  apply cohend_undersized_nan. right. left. simpl. lia.
Defined.







(** * Further properties of [cohend] and of the cell that calls it *)

(** ** Swapping the arguments, on every input *)



(** The argument handed to [math.sqrt] is never negative. *)
Lemma sqrt_pooled_returns (d1 d2 : list num) :
  exists s,
    math.sqrt (fdiv (fadd (fmul (of_int (len d1 - 1)) (numpy.var d1 1))
                          (fmul (of_int (len d2 - 1)) (numpy.var d2 1)))
                    (of_int (len d1 + len d2 - 2))) = ret s.
Proof.
  destruct (Nat.lt_ge_cases (List.length d1) 2) as [H1 | H1].
  { exists NaN. rewrite (var_short d1 H1).
    unfold of_int at 1. now rewrite fmul_NaN_r, fadd_NaN_l, fdiv_NaN_l. }
  destruct (Nat.lt_ge_cases (List.length d2) 2) as [H2 | H2].
  { exists NaN. rewrite (var_short d2 H2).
    now rewrite fmul_NaN_r, fadd_NaN_r, fdiv_NaN_l. }
  apply sqrt_nonneg_returns.
  assert (C1 : 0 <= IZR (len d1 - 1)) by (apply IZR_le; unfold len; lia).
  assert (C2 : 0 <= IZR (len d2 - 1)) by (apply IZR_le; unfold len; lia).
  assert (C : 0 <= IZR (len d1 + len d2 - 2))
    by (apply IZR_le; unfold len; lia).
  pose proof (var_nonneg d1 1) as V1. pose proof (var_nonneg d2 1) as V2.
  unfold of_int. auto with fnum.
Qed.


(** ** Observations that are not finite *)

Lemma fold_fadd_acc (l : list num) (acc e : num) :
  fold_left fadd l (fadd acc e) = fadd (fold_left fadd l acc) e.
Proof.
  revert acc. induction l as [| x l IH]; intros acc; [reflexivity |].
  simpl. rewrite <- IH. f_equal.
  rewrite <- !fadd_assoc. f_equal. apply fadd_comm.
Qed.

Lemma sum_split (l1 l2 : list num) (e : num) :
  numpy.sum (l1 ++ e :: l2) = fadd (numpy.sum (l1 ++ l2)) e.
Proof.
  unfold numpy.sum. rewrite !fold_left_app. simpl. apply fold_fadd_acc.
Qed.

Lemma dev_nonfinite (e r : num) (z : Z) :
  ~ is_finite e -> (0 <= z)%Z -> fsub e (fdiv (fadd r e) (of_int z)) = NaN.
Proof.
  intros He Hz. apply IZR_le in Hz. unfold of_int.
  set (n := IZR z) in *. change (IZR 0) with 0 in Hz.
  destruct e as [x | | |]; [exfalso; apply He; exact I | | |];
    destruct r as [y | | |]; simpl; try reflexivity;
    destruct (Rlt_dec n 0); try reflexivity; lra.
Qed.

Lemma var_nonfinite (a : list num) (ddof : Z) (e : num) :
  In e a -> ~ is_finite e -> numpy.var a ddof = NaN.
Proof.
  intros Hin He. apply in_split in Hin. destruct Hin as (l1 & l2 & ->).
  unfold numpy.var. cbv zeta. rewrite sum_split, !map_app.
  cbn [map].
  rewrite dev_nonfinite; [| exact He | unfold len; lia].
  cbn [fmul]. rewrite sum_split, fadd_NaN_r. reflexivity.
Qed.

Lemma cohend_var_nan_l (d1 d2 : list num) :
  numpy.var d1 1 = NaN -> cohend d1 d2 = ret NaN.
Proof.
  intros H. unfold cohend. rewrite H.
  unfold of_int at 1. rewrite fmul_NaN_r, fadd_NaN_l, fdiv_NaN_l.
  cbn [math.sqrt]. unfold bind, ret. rewrite fdiv_NaN_r. reflexivity.
Qed.

Lemma cohend_var_nan_r (d1 d2 : list num) :
  numpy.var d2 1 = NaN -> cohend d1 d2 = ret NaN.
Proof.
  intros H. unfold cohend. rewrite H.
  rewrite fmul_NaN_r, fadd_NaN_r, fdiv_NaN_l.
  cbn [math.sqrt]. unfold bind, ret. rewrite fdiv_NaN_r. reflexivity.
Qed.

(** X3.  An observation that is not a finite number (a missing value coded
    as not-a-number, or an infinity) in either array makes [cohend] return
    not-a-number, whatever the other observations are. *)
Theorem cohend_nonfinite_observation (d1 d2 : list num) (e : num) :
  In e d1 \/ In e d2 -> ~ is_finite e -> returns (cohend d1 d2) NaN.
Proof.
  intros [Hin | Hin] He w.
  - rewrite cohend_var_nan_l; [reflexivity |].
    now apply var_nonfinite with (e := e).
  - rewrite cohend_var_nan_r; [reflexivity |].
    now apply var_nonfinite with (e := e).
Qed.

Lemma cohend_nonfinite_observation_witness :
  returns (cohend [Fin 1; PInf; Fin 3] [Fin 0; Fin 2]) NaN.
Proof.
  apply (cohend_nonfinite_observation _ _ PInf).
  - left. right. left. reflexivity.
  - intros H. exact H.
Defined.

(** ** The cell that prepares two samples and calls [cohend] *)

Lemma cell_steps (seed : Z -> M unit) (randn : Z -> M (list num))
      (format_3f : num -> string) (w w1 w2 w3 : World) (z1 z2 : list num)
      (v : num) :
  seed 1%Z w = (Ok tt, w1) ->
  randn 10000%Z w1 = (Ok z1, w2) ->
  randn 10000%Z w2 = (Ok z2, w3) ->
  returns (cohend (array_shift (array_scale 10 z1) 60)
                  (array_shift (array_scale 10 z2) 55)) v ->
  effect_size_cell seed randn format_3f w
  = (Ok v, mkWorld (random_state w3)
                   (stdout w3 ++ [("Cohens d: " ++ format_3f v)%string])).
Proof.
  intros Hs Hr1 Hr2 Hd. unfold effect_size_cell, bind.
  rewrite Hs, Hr1, Hr2, (Hd w3). reflexivity.
Qed.

(** X11.  The cell does not fail on its own account: whatever arrays the two
    calls of [randn] return (of any size, with any entries), once [seed] and
    [randn] have returned the cell returns a value, prints exactly one line
    after what was printed before, and leaves the generator in the state
    the second [randn] left it. *)
Theorem effect_size_cell_returns
        (seed : Z -> M unit) (randn : Z -> M (list num))
        (format_3f : num -> string) (w w1 w2 w3 : World) (z1 z2 : list num) :
  seed 1%Z w = (Ok tt, w1) ->
  randn 10000%Z w1 = (Ok z1, w2) ->
  randn 10000%Z w2 = (Ok z2, w3) ->
  exists v line,
    effect_size_cell seed randn format_3f w
    = (Ok v, mkWorld (random_state w3) (stdout w3 ++ [line])).
Proof.
  intros Hs Hr1 Hr2.
  destruct (sqrt_pooled_returns (array_shift (array_scale 10 z1) 60)
                                (array_shift (array_scale 10 z2) 55))
    as [s Hsq].
  eexists. eexists.
  apply (cell_steps seed randn format_3f w w1 w2 w3 z1 z2 _ Hs Hr1 Hr2).
  intros u. unfold cohend. rewrite Hsq. reflexivity.
Qed.

Lemma effect_size_cell_returns_witness :
  exists v line,
    effect_size_cell (fun _ => ret tt) (fun _ => ret [NaN])
                     (fun _ => "nan"%string) w0
    = (Ok v, mkWorld [] (stdout w0 ++ [line])).
Proof.
  apply (effect_size_cell_returns _ _ _ w0 w0 w0 w0 [NaN] [NaN]);
    reflexivity.
Defined.

(** * Binary64: lemmas and claims *)

Module Binary64Facts.

Import PrimFloat SpecFloat FloatOps FloatAxioms.
Import Binary64.

(** ** Signs of the results of the rounding functions *)

Lemma signed_false_nonneg r : signed false r -> nonneg_spec r.
Proof. destruct r; simpl; auto. Qed.

Lemma round_aux_signed s m e l :
  signed s (binary_round_aux prec emax s m e l).
Proof.
  unfold binary_round_aux.
  destruct (shr_fexp prec emax m e l) as [mrs' e'].
  destruct (shr_fexp prec emax _ e' loc_Exact) as [mrs'' e''].
  destruct (shr_m mrs''); [exact eq_refl | | exact I].
  destruct (e'' <=? emax - prec)%Z; exact eq_refl.
Qed.

Lemma round_signed s m e : signed s (binary_round prec emax s m e).
Proof.
  unfold binary_round.
  destruct (shl_align m e _) as [mz ez]. apply round_aux_signed.
Qed.

Lemma normalize_nonneg m e :
  (0 <= m)%Z -> nonneg_spec (binary_normalize prec emax m e false).
Proof.
  intros Hm. destruct m as [| p | p]; simpl.
  - reflexivity.
  - apply signed_false_nonneg, round_signed.
  - lia.
Qed.

(** ** Closure of the non-negative class *)

Lemma SFadd_nonneg x y :
  nonneg_spec x -> nonneg_spec y -> nonneg_spec (SF64add x y).
Proof.
  destruct x as [sx | sx | | sx mx ex], y as [sy | sy | | sy my ey];
    simpl; intros Hx Hy; subst; try exact I; try reflexivity.
  apply normalize_nonneg. simpl. lia.
Qed.

Lemma SFmul_nonneg x y :
  nonneg_spec x -> nonneg_spec y -> nonneg_spec (SF64mul x y).
Proof.
  destruct x as [sx | sx | | sx mx ex], y as [sy | sy | | sy my ey];
    simpl; intros Hx Hy; subst; try exact I; try reflexivity.
  apply signed_false_nonneg, round_aux_signed.
Qed.

Lemma SFmul_self_nonneg x : nonneg_spec (SF64mul x x).
Proof.
  destruct x as [s | s | | s m e]; simpl; try exact I;
    try (destruct s; reflexivity).
  apply signed_false_nonneg.
  replace (xorb s s) with false by (destruct s; reflexivity).
  apply round_aux_signed.
Qed.

Lemma SFdiv_nonneg x y :
  nonneg_spec x -> nonneg_spec y -> nonneg_spec (SF64div x y).
Proof.
  destruct x as [sx | sx | | sx mx ex], y as [sy | sy | | sy my ey];
    simpl; intros Hx Hy; subst; try exact I; try reflexivity.
  destruct (SFdiv_core_binary prec emax (Z.pos mx) ex (Z.pos my) ey)
    as [[mz ez] lz].
  apply signed_false_nonneg, round_aux_signed.
Qed.

Lemma SFsqrt_nonneg x : nonneg_spec x -> nonneg_spec (SF64sqrt x).
Proof.
  destruct x as [s | s | | s m e]; simpl; intros Hx; subst; try exact I;
    try reflexivity.
  destruct (SFsqrt_core_binary prec emax (Z.pos m) e) as [[mz ez] lz].
  apply signed_false_nonneg, round_aux_signed.
Qed.

(** ** The same on floats *)

Lemma nonneg_zero : nonneg 0%float.
Proof. reflexivity. Qed.

Lemma nonneg_add x y : nonneg x -> nonneg y -> nonneg (x + y)%float.
Proof. unfold nonneg. rewrite add_spec. apply SFadd_nonneg. Qed.

Lemma nonneg_mul x y : nonneg x -> nonneg y -> nonneg (x * y)%float.
Proof. unfold nonneg. rewrite mul_spec. apply SFmul_nonneg. Qed.

Lemma nonneg_mul_self x : nonneg (x * x)%float.
Proof. unfold nonneg. rewrite mul_spec. apply SFmul_self_nonneg. Qed.

Lemma nonneg_div x y : nonneg x -> nonneg y -> nonneg (x / y)%float.
Proof. unfold nonneg. rewrite div_spec. apply SFdiv_nonneg. Qed.

Lemma nonneg_sqrt x : nonneg x -> nonneg (PrimFloat.sqrt x).
Proof. unfold nonneg. rewrite sqrt_spec. apply SFsqrt_nonneg. Qed.

Lemma nonneg_of_uint63 n : nonneg (PrimFloat.of_uint63 n).
Proof.
  unfold nonneg. rewrite of_uint63_spec. apply normalize_nonneg.
  apply Uint63.to_Z_bounded.
Qed.

Lemma nonneg_of_int z : (0 <= z)%Z -> nonneg (of_int z).
Proof.
  intros Hz. unfold of_int.
  destruct (Z.ltb_spec z 0); [lia | apply nonneg_of_uint63].
Qed.

(** A non-negative argument does not make [math.sqrt] raise. *)
Lemma nonneg_not_lt_zero x : nonneg x -> (x <? 0)%float = false.
Proof.
  unfold nonneg. rewrite ltb_spec.
  change (Prim2SF 0%float) with (S754_zero false).
  destruct (Prim2SF x) as [s | s | | s m e]; simpl; intros H; subst;
    reflexivity.
Qed.

(** ** The depth of the pairwise summation *)

Section Fuel.

Context {T : Type} (add : T -> T -> T) (zero : T).

Lemma halves_shorter (n : nat) :
  (128 < n)%nat ->
  (n / 2 - (n / 2) mod 8 < n)%nat /\ (0 < n / 2 - (n / 2) mod 8)%nat.
Proof.
  intros Hn.
  pose proof (Nat.div_mod_eq n 2) as H2.
  pose proof (Nat.mod_upper_bound n 2 ltac:(lia)) as H2'.
  pose proof (Nat.mod_upper_bound (n / 2) 8 ltac:(lia)) as H8.
  lia.
Qed.

Lemma pairwise_sum_step (f : nat) (a : list T) :
  numpy.pairwise_sum add zero (S f) a
  = let n := List.length a in
    if (n <? 8)%nat then fold_left add a zero
    else if (n <=? 128)%nat then numpy.block_sum add zero a
    else add (numpy.pairwise_sum add zero f
                (firstn (n / 2 - (n / 2) mod 8) a))
             (numpy.pairwise_sum add zero f
                (skipn (n / 2 - (n / 2) mod 8) a)).
Proof. reflexivity. Qed.

Lemma pairwise_sum_short (f : nat) (a : list T) :
  (List.length a < 8)%nat ->
  numpy.pairwise_sum add zero f a = fold_left add a zero.
Proof.
  intros Hn. apply Nat.ltb_lt in Hn.
  destruct f; [| rewrite pairwise_sum_step]; cbv zeta;
    cbn [numpy.pairwise_sum]; now rewrite Hn.
Qed.

(** The length of the array is fuel enough: with that much or more, the
    sum does not depend on the fuel. *)
Lemma pairwise_sum_fuel (f1 f2 : nat) (a : list T) :
  (List.length a <= f1)%nat -> (List.length a <= f2)%nat ->
  numpy.pairwise_sum add zero f1 a = numpy.pairwise_sum add zero f2 a.
Proof.
  revert f2 a. induction f1 as [| f1 IH]; intros f2 a H1 H2.
  - rewrite !pairwise_sum_short by lia. reflexivity.
  - destruct f2 as [| f2].
    + rewrite !pairwise_sum_short by lia. reflexivity.
    + rewrite !pairwise_sum_step. cbv zeta.
      destruct (List.length a <? 8)%nat; [reflexivity |].
      destruct (List.length a <=? 128)%nat eqn:Hb; [reflexivity |].
      apply Nat.leb_gt in Hb.
      destruct (halves_shorter _ Hb) as [Hlt Hpos].
      f_equal; apply IH;
        rewrite ?length_firstn, ?length_skipn; lia.
Qed.

End Fuel.

(** ** numpy's summation keeps what addition keeps *)

Section Closure.

Context {T : Type} (P : T -> Prop) (add : T -> T -> T) (zero : T).
Hypothesis add_closed : forall x y, P x -> P y -> P (add x y).
Hypothesis zero_in : P zero.

Lemma fold_closed (a : list T) (acc : T) :
  Forall P a -> P acc -> P (fold_left add a acc).
Proof.
  intros Ha. revert acc. induction Ha as [| x a Hx _ IH]; intros acc Hacc.
  - exact Hacc.
  - simpl. apply IH. now apply add_closed.
Qed.

Lemma Forall_firstn_skipn (n : nat) (a : list T) :
  Forall P a -> Forall P (firstn n a) /\ Forall P (skipn n a).
Proof.
  intros Ha. rewrite <- (firstn_skipn n a) in Ha.
  now apply Forall_app in Ha.
Qed.

Lemma add_lanes_closed (r b : list T) :
  Forall P r -> Forall P b -> Forall P (numpy.add_lanes add r b).
Proof.
  intros Hr. revert b. induction Hr as [| x r Hx Hr IH]; intros b Hb.
  - constructor.
  - destruct Hb as [| y b Hy Hb]; simpl.
    + now constructor.
    + constructor; [now apply add_closed | now apply IH].
Qed.

Lemma lanes_closed (k : nat) (r rest : list T) :
  Forall P r -> Forall P rest ->
  Forall P (fst (numpy.lanes add k r rest))
  /\ Forall P (snd (numpy.lanes add k r rest)).
Proof.
  revert r rest. induction k as [| k IH]; intros r rest Hr Hrest; simpl.
  - now split.
  - destruct (Forall_firstn_skipn 8 rest Hrest) as [Hf Hs].
    apply IH; [now apply add_lanes_closed | exact Hs].
Qed.

Lemma block_sum_closed (a : list T) :
  Forall P a -> P (numpy.block_sum add zero a).
Proof.
  intros Ha. unfold numpy.block_sum.
  destruct (Forall_firstn_skipn 8 a Ha) as [Hf Hs].
  destruct (lanes_closed
              ((List.length a - List.length a mod 8) / 8 - 1)
              (firstn 8 a) (skipn 8 a) Hf Hs) as [Hr Hrest].
  destruct (numpy.lanes add _ (firstn 8 a) (skipn 8 a)) as [r rest].
  simpl in Hr, Hrest.
  destruct r as [| r0 [| r1 [| r2 [| r3 [| r4 [| r5 [| r6 [| r7 [| r8 r]]]]]]]]];
    try exact zero_in.
  apply fold_closed; [exact Hrest |].
  repeat match goal with
         | H : Forall P (_ :: _) |- _ => inversion H; subst; clear H
         end.
  repeat apply add_closed; assumption.
Qed.

Lemma pairwise_sum_closed (fuel : nat) (a : list T) :
  Forall P a -> P (numpy.pairwise_sum add zero fuel a).
Proof.
  revert a. induction fuel as [| f IH]; intros a Ha; simpl.
  - destruct (List.length a <? 8)%nat; [now apply fold_closed |].
    destruct (List.length a <=? 128)%nat; now apply block_sum_closed.
  - destruct (List.length a <? 8)%nat; [now apply fold_closed |].
    destruct (List.length a <=? 128)%nat; [now apply block_sum_closed |].
    destruct (Forall_firstn_skipn
                (List.length a / 2 - (List.length a / 2) mod 8) a Ha)
      as [Hf Hs].
    apply add_closed; now apply IH.
Qed.

End Closure.

(** ** What is under the square root is never negative *)

Lemma sum_nonneg (a : list float) :
  Forall nonneg a -> nonneg (numpy.sum a).
Proof.
  intros Ha. unfold numpy.sum. apply nonneg_add; [apply nonneg_zero |].
  apply pairwise_sum_closed;
    [exact nonneg_add | exact nonneg_zero | exact Ha].
Qed.

Lemma var_of_eq (a : list float) :
  var_of a
  = (numpy.sum (map (fun e => e * e)
                    (map (fun e => e - mean_of a) a))
     / of_int (Z.max (len a - 1) 0))%float.
Proof. reflexivity. Qed.

Lemma var_of_nonneg (a : list float) : nonneg (var_of a).
Proof.
  rewrite var_of_eq. apply nonneg_div.
  - apply sum_nonneg. apply Forall_forall. intros y Hy.
    apply in_map_iff in Hy. destruct Hy as (x & <- & _).
    apply nonneg_mul_self.
  - apply nonneg_of_int. lia.
Qed.

Lemma pooled_variance_nonneg (d1 d2 : list float) :
  nonneg (pooled_variance d1 d2).
Proof.
  unfold pooled_variance.
  destruct d1 as [| x1 d1].
  { unfold nonneg. rewrite div_spec, add_spec.
    change (of_int (len (@nil float) - 1) * var_of [])%float with nan.
    change (Prim2SF nan) with S754_nan. exact I. }
  destruct d2 as [| x2 d2].
  { unfold nonneg. rewrite div_spec, add_spec.
    change (of_int (len (@nil float) - 1) * var_of [])%float with nan.
    change (Prim2SF nan) with S754_nan.
    destruct (Prim2SF _); exact I. }
  assert (H1 : (0 <= len (x1 :: d1) - 1)%Z) by (unfold len; cbn [List.length]; lia).
  assert (H2 : (0 <= len (x2 :: d2) - 1)%Z) by (unfold len; cbn [List.length]; lia).
  apply nonneg_div.
  - apply nonneg_add; apply nonneg_mul;
      (apply nonneg_of_int; assumption) || apply var_of_nonneg.
  - apply nonneg_of_int. unfold len in *. cbn [List.length] in *. lia.
Qed.

Lemma pooled_std_nonneg (d1 d2 : list float) : nonneg (pooled_std d1 d2).
Proof. apply nonneg_sqrt, pooled_variance_nonneg. Qed.

(** ** Running the body *)

Lemma bind_call {A C : Type} (m : W A) (k : A -> B C) (st : Interp) :
  bind (call m) k st = k (fst m) (warn (snd m) st).
Proof. reflexivity. Qed.

Lemma bind_ret {A C : Type} (v : A) (k : A -> B C) (st : Interp) :
  bind (ret v) k st = k v st.
Proof. reflexivity. Qed.

Lemma warn_warn (a b : list warning) (st : Interp) :
  warn b (warn a st) = warn (a ++ b) st.
Proof. unfold warn. simpl. now rewrite app_assoc. Qed.

Lemma sqrt_returns (q : float) :
  nonneg q -> math.sqrt q = ret (PrimFloat.sqrt q).
Proof.
  intros Hq. unfold math.sqrt. now rewrite nonneg_not_lt_zero.
Qed.

(** A call returns [cohend_value] and issues [cohend_warnings], whatever
    the state; it raises nothing. *)
Lemma cohend_run (d1 d2 : list float) (st : Interp) :
  cohend d1 d2 st
  = (Ok (cohend_value d1 d2), warn (cohend_warnings d1 d2) st).
Proof.
  unfold cohend. rewrite !bind_call.
  change (fst (numpy.var d1 1)) with (var_of d1).
  change (fst (numpy.var d2 1)) with (var_of d2).
  change (fst (numpy.multiply ?x ?y)) with (x * y)%float.
  change (fst (numpy.add ?x ?y)) with (x + y)%float.
  change (fst (numpy.true_divide ?x ?y)) with (x / y)%float.
  fold (pooled_variance d1 d2).
  rewrite (sqrt_returns _ (pooled_variance_nonneg d1 d2)), bind_ret.
  rewrite !bind_call.
  unfold call. rewrite !warn_warn. reflexivity.
Qed.

Lemma cohend_yields (d1 d2 : list float) :
  yields (cohend d1 d2) (cohend_value d1 d2).
Proof. intros st. now rewrite cohend_run. Qed.

(** ** The tests on floats, read on the representation *)

Lemma SFcompare_refl_finite s m e :
  SFcompare (S754_finite s m e) (S754_finite s m e) = Some Eq.
Proof.
  simpl. rewrite Z.compare_refl, Pos.compare_cont_refl.
  destruct s; reflexivity.
Qed.

Lemma is_nan_eq x :
  is_nan x = match Prim2SF x with S754_nan => true | _ => false end.
Proof.
  unfold is_nan. rewrite eqb_spec. unfold SFeqb.
  destruct (Prim2SF x) as [s | s | | s m e].
  - reflexivity.
  - destruct s; reflexivity.
  - reflexivity.
  - now rewrite SFcompare_refl_finite.
Qed.

Lemma is_zero_eq x :
  is_zero x = match Prim2SF x with S754_zero _ => true | _ => false end.
Proof.
  unfold is_zero. rewrite eqb_spec. unfold SFeqb.
  change (Prim2SF zero) with (S754_zero false).
  destruct (Prim2SF x) as [s | s | | s m e]; simpl; try reflexivity;
    destruct s; reflexivity.
Qed.

Lemma is_infinity_eq x :
  is_infinity x
  = match Prim2SF x with S754_infinity _ => true | _ => false end.
Proof.
  unfold is_infinity. rewrite eqb_spec, abs_spec. unfold SFeqb.
  change (Prim2SF infinity) with (S754_infinity false).
  destruct (Prim2SF x) as [s | s | | s m e]; reflexivity.
Qed.

Lemma is_finite_eq x :
  is_finite x
  = match Prim2SF x with
    | S754_zero _ | S754_finite _ _ _ => true
    | _ => false
    end.
Proof.
  unfold is_finite. rewrite is_nan_eq, is_infinity_eq.
  destruct (Prim2SF x); reflexivity.
Qed.

Lemma zero_ltb_eq x :
  (0 <? x)%float
  = match Prim2SF x with
    | S754_infinity false | S754_finite false _ _ => true
    | _ => false
    end.
Proof.
  rewrite ltb_spec. unfold SFltb.
  change (Prim2SF 0%float) with (S754_zero false).
  destruct (Prim2SF x) as [s | s | | s m e]; simpl; try reflexivity;
    destruct s; reflexivity.
Qed.

Lemma ltb_zero_eq x :
  (x <? 0)%float
  = match Prim2SF x with
    | S754_infinity true | S754_finite true _ _ => true
    | _ => false
    end.
Proof.
  rewrite ltb_spec. unfold SFltb.
  change (Prim2SF 0%float) with (S754_zero false).
  destruct (Prim2SF x) as [s | s | | s m e]; simpl; try reflexivity;
    destruct s; reflexivity.
Qed.

Lemma float_of_spec x y : Prim2SF x = Prim2SF y -> x = y.
Proof. apply Prim2SF_inj. Qed.

(** ** Rounding a non-negative mantissa never gives not-a-number *)

Lemma iter_pos_inv {A : Type} (Q : A -> Prop) (f : A -> A) :
  (forall x, Q x -> Q (f x)) ->
  forall n x, Q x -> Q (iter_pos f n x).
Proof.
  intros Hf. induction n as [n IH | n IH |]; intros x Hx; simpl; auto.
Qed.

Lemma shr_1_nonneg mrs : (0 <= shr_m mrs)%Z -> (0 <= shr_m (shr_1 mrs))%Z.
Proof.
  destruct mrs as [m r s]. simpl.
  destruct m as [| [p | p |] | [p | p |]]; simpl; lia.
Qed.

Lemma shr_nonneg mrs e n :
  (0 <= shr_m mrs)%Z -> (0 <= shr_m (fst (shr mrs e n)))%Z.
Proof.
  intros H. unfold shr. destruct n as [| p | p]; simpl; auto.
  apply (iter_pos_inv (fun r => (0 <= shr_m r)%Z)); auto using shr_1_nonneg.
Qed.

Lemma shr_fexp_nonneg m e l :
  (0 <= m)%Z -> (0 <= shr_m (fst (shr_fexp prec emax m e l)))%Z.
Proof.
  intros H. unfold shr_fexp. apply shr_nonneg.
  destruct l as [| []]; exact H.
Qed.

Lemma round_nearest_even_nonneg m l :
  (0 <= m)%Z -> (0 <= round_nearest_even m l)%Z.
Proof.
  intros H. unfold round_nearest_even.
  destruct l as [| []]; try destruct (Z.even m); lia.
Qed.

Lemma round_aux_not_nan s m e l :
  (0 <= m)%Z -> binary_round_aux prec emax s m e l <> S754_nan.
Proof.
  intros Hm. unfold binary_round_aux.
  pose proof (shr_fexp_nonneg m e l Hm) as H1.
  destruct (shr_fexp prec emax m e l) as [mrs' e']. simpl in H1.
  pose proof (shr_fexp_nonneg
                (round_nearest_even (shr_m mrs') (loc_of_shr_record mrs'))
                e' loc_Exact (round_nearest_even_nonneg _ _ H1)) as H2.
  destruct (shr_fexp prec emax _ e' loc_Exact) as [mrs'' e'']. simpl in H2.
  destruct (shr_m mrs'') as [| p | p]; [discriminate | | lia].
  destruct (e'' <=? emax - prec)%Z; discriminate.
Qed.

Lemma normalize_not_nan m e sz :
  binary_normalize prec emax m e sz <> S754_nan.
Proof.
  destruct m as [| p | p]; simpl; [discriminate | |];
    unfold binary_round; destruct (shl_align _ _ _) as [mz ez];
    apply round_aux_not_nan; lia.
Qed.

(** The difference of two finite numbers is a number (finite, or an
    infinity when it overflows). *)
Lemma sub_finite_not_nan x y :
  is_finite x = true -> is_finite y = true -> is_nan (x - y)%float = false.
Proof.
  rewrite !is_finite_eq, is_nan_eq, sub_spec.
  destruct (Prim2SF x) as [sx | sx | | sx mx ex];
    destruct (Prim2SF y) as [sy | sy | | sy my ey];
    try discriminate; intros _ _; simpl.
  - destruct sx, sy; reflexivity.
  - reflexivity.
  - reflexivity.
  - match goal with
    | |- match ?b with _ => _ end = false =>
        pose proof (normalize_not_nan
                      (cond_Zopp sx (Z.pos (fst (shl_align mx ex (Z.min ex ey))))
                       - cond_Zopp sy (Z.pos (fst (shl_align my ey (Z.min ex ey)))))
                      (Z.min ex ey) false) as Hn;
        destruct b; try reflexivity; now elim Hn
    end.
Qed.

(** A number divided by a finite non-zero number is a number. *)
Lemma div_not_nan x y :
  is_nan x = false -> is_finite y = true -> is_zero y = false ->
  is_nan (x / y)%float = false.
Proof.
  rewrite !is_nan_eq, is_finite_eq, is_zero_eq, div_spec.
  destruct (Prim2SF x) as [sx | sx | | sx mx ex];
    destruct (Prim2SF y) as [sy | sy | | sy my ey];
    try discriminate; intros _ _ _; try reflexivity.
  unfold SF64div, SFdiv.
  pose proof (round_aux_not_nan (xorb sx sy)) as Hn.
  unfold SFdiv_core_binary in *.
  set (e' := Z.min _ _).
  set (m' := match (ex - ey - e')%Z with
             | Z0 => Z.pos mx
             | Z.pos _ => Z.shiftl (Z.pos mx) (ex - ey - e')
             | Z.neg _ => 0%Z
             end).
  assert (Hm' : (0 <= m')%Z).
  { unfold m'. destruct (ex - ey - e')%Z; try lia.
    apply Z.shiftl_nonneg. lia. }
  pose proof (Z.div_pos m' (Z.pos my) Hm' ltac:(lia)) as Hq.
  unfold Z.div in Hq.
  destruct (Z.div_eucl m' (Z.pos my)) as [q r]. simpl in Hq.
  specialize (Hn q e' (new_location (Z.pos my) r) Hq).
  destruct (binary_round_aux prec emax (xorb sx sy) q e' _);
    try reflexivity. now elim Hn.
Qed.

(** ** The claims, on the binary64 program *)

(** Proves [yields (cohend a b) v] for given arrays by running the body. *)
Ltac run_cohend :=
  let st := fresh "st" in
  intros st; rewrite cohend_run; cbn [fst]; f_equal; vm_compute; reflexivity.

Lemma var_of_bessel (a : list float) :
  (2 <= len a)%Z -> var_of a = bessel_var a.
Proof.
  intros Hn. rewrite var_of_eq. unfold bessel_var.
  rewrite map_map, Z.max_l by lia. reflexivity.
Qed.

(** C1.  For samples of at least two observations each, whatever the
    pooled variance, [cohend] returns [(mean d1 - mean d2) / s] with
    [s = sqrt (((n1 - 1) * var1 + (n2 - 1) * var2) / (n1 + n2 - 2))],
    [n1], [n2] the sample sizes and [var1], [var2] the Bessel-corrected
    sample variances, every operation being the binary64 one. *)
Theorem cohend_formula (d1 d2 : list float) :
  let n1 := len d1 in
  let n2 := len d2 in
  let var1 := bessel_var d1 in
  let var2 := bessel_var d2 in
  let s := PrimFloat.sqrt
             ((of_int (n1 - 1) * var1 + of_int (n2 - 1) * var2)
              / of_int (n1 + n2 - 2))%float in
  (2 <= n1)%Z -> (2 <= n2)%Z ->
  yields (cohend d1 d2) ((mean_of d1 - mean_of d2) / s)%float.
Proof.
  intros n1 n2 var1 var2 s H1 H2 st.
  rewrite cohend_run. cbn [fst]. f_equal.
  unfold cohend_value, pooled_std, pooled_variance.
  rewrite !var_of_bessel by assumption. reflexivity.
Qed.

Lemma cohend_formula_witness :
  yields (cohend [1; 3] [0; 2])%float
         ((mean_of [1; 3] - mean_of [0; 2])
          / PrimFloat.sqrt
              ((of_int 1 * bessel_var [1; 3] + of_int 1 * bessel_var [0; 2])
               / of_int 2))%float.
Proof.
  apply (cohend_formula [1; 3] [0; 2])%float.
  - vm_compute. discriminate.
  - vm_compute. discriminate.
Defined.

(** The value at this input, and at one where the exact quotient would be
    [- sqrt 2]: the squared deviations overflow, [s] is infinite and the
    result is [-0.0]. *)
Lemma cohend_example_values :
  yields (cohend [1; 3] [0; 2])%float 0x1.6a09e667f3bccp-1%float
  /\ yields (cohend [pow2 700; - pow2 700] [3 * pow2 700; pow2 700])%float
            (-0)%float.
Proof. split; run_cohend. Qed.

(** ** Division by the pooled standard deviation *)

Lemma nonneg_zero_repr x :
  nonneg x -> is_zero x = true -> Prim2SF x = S754_zero false.
Proof.
  unfold nonneg. rewrite is_zero_eq.
  destruct (Prim2SF x) as [s | s | | s m e]; simpl; try discriminate.
  now intros ->.
Qed.

Lemma div_zero_repr x y :
  Prim2SF y = S754_zero false ->
  Prim2SF (x / y)
  = match Prim2SF x with
    | S754_nan | S754_zero _ => S754_nan
    | S754_infinity s | S754_finite s _ _ => S754_infinity s
    end.
Proof.
  intros Hy. rewrite div_spec, Hy. unfold SF64div, SFdiv.
  destruct (Prim2SF x) as [s | s | | s m e]; try reflexivity;
    destruct s; reflexivity.
Qed.

Lemma pooled_std_zero (d1 d2 : list float) :
  is_zero (pooled_std d1 d2) = true ->
  Prim2SF (pooled_std d1 d2) = S754_zero false.
Proof. apply nonneg_zero_repr, pooled_std_nonneg. Qed.

(** C3.  When the pooled standard deviation [s] that the code computes is
    zero, [cohend] signals nothing: it returns the floating-point quotient
    [(u1 - u2) / 0.0], which is never a finite number: not-a-number when
    the difference of the means is zero (or not-a-number), plus infinity
    when it is positive and minus infinity when it is negative. *)
Theorem cohend_zero_divisor (d1 d2 : list float) :
  let du := (mean_of d1 - mean_of d2)%float in
  is_zero (pooled_std d1 d2) = true ->
  exists v,
    yields (cohend d1 d2) v
    /\ is_finite v = false
    /\ (is_nan v = true <-> is_zero du = true \/ is_nan du = true)
    /\ ((0 <? du)%float = true -> v = infinity)
    /\ ((du <? 0)%float = true -> v = neg_infinity).
Proof.
  intros du Hs. exists (cohend_value d1 d2).
  split; [apply cohend_yields |].
  assert (Hv : Prim2SF (cohend_value d1 d2)
               = match Prim2SF du with
                 | S754_nan | S754_zero _ => S754_nan
                 | S754_infinity s | S754_finite s _ _ => S754_infinity s
                 end)
    by exact (div_zero_repr du _ (pooled_std_zero d1 d2 Hs)).
  clearbody du.
  rewrite is_finite_eq, !is_nan_eq, is_zero_eq, zero_ltb_eq, ltb_zero_eq.
  destruct (Prim2SF du) as [s | s | | s m e]; rewrite Hv.
  - repeat split; auto; discriminate.
  - repeat split; try discriminate.
    + intros [H | H]; discriminate.
    + destruct s; [discriminate |]. intros _.
      apply float_of_spec. rewrite Hv. reflexivity.
    + destruct s; [| discriminate]. intros _.
      apply float_of_spec. rewrite Hv. reflexivity.
  - repeat split; auto; discriminate.
  - repeat split; try discriminate.
    + intros [H | H]; discriminate.
    + destruct s; [discriminate |]. intros _.
      apply float_of_spec. rewrite Hv. reflexivity.
    + destruct s; [| discriminate]. intros _.
      apply float_of_spec. rewrite Hv. reflexivity.
Qed.

Lemma cohend_zero_divisor_witness :
  exists v,
    yields (cohend [1; 1] [0; 0])%float v
    /\ is_finite v = false
    /\ (is_nan v = true
        <-> is_zero (mean_of [1; 1] - mean_of [0; 0])%float = true
            \/ is_nan (mean_of [1; 1] - mean_of [0; 0])%float = true)
    /\ ((0 <? mean_of [1; 1] - mean_of [0; 0])%float = true -> v = infinity)
    /\ ((mean_of [1; 1] - mean_of [0; 0] <? 0)%float = true
        -> v = neg_infinity).
Proof.
  apply (cohend_zero_divisor [1; 1] [0; 0])%float.
  vm_compute. reflexivity.
Defined.

(** C3, the claim as written: on [[5,5,5]], [[5,5,5]] the pooled standard
    deviation is zero and the call returns not-a-number, the value it also
    returns on an undersized sample; and on the constant samples
    [[0.1,0.1,0.1]], [[0.3,0.3,0.3]] rounding leaves a pooled standard
    deviation of about 1.2e-17, and the call returns an ordinary finite
    number. *)
Lemma cohend_zero_divisor_counterexample :
  is_zero (pooled_std [5; 5; 5] [5; 5; 5])%float = true
  /\ yields (cohend [5; 5; 5] [5; 5; 5])%float nan
  /\ yields (cohend [5] [5; 5; 5])%float nan
  /\ yields (cohend [tenth; tenth; tenth]
                    [three_tenths; three_tenths; three_tenths])%float
            (-16640988525981784)%float.
Proof.
  split; [vm_compute; reflexivity |].
  split; [| split]; run_cohend.
Qed.

(** ** A sample against itself *)

Lemma sub_diag_repr x :
  Prim2SF (x - x)
  = match Prim2SF x with
    | S754_nan | S754_infinity _ => S754_nan
    | _ => S754_zero false
    end.
Proof.
  rewrite sub_spec. unfold SF64sub, SFsub.
  destruct (Prim2SF x) as [s | s | | s m e].
  - destruct s; reflexivity.
  - destruct s; reflexivity.
  - reflexivity.
  - rewrite Z.sub_diag. reflexivity.
Qed.

Lemma zero_div_nonneg_repr y :
  nonneg y ->
  Prim2SF (0 / y)
  = match Prim2SF y with
    | S754_nan | S754_zero _ => S754_nan
    | _ => S754_zero false
    end.
Proof.
  unfold nonneg. rewrite div_spec.
  change (Prim2SF 0%float) with (S754_zero false).
  destruct (Prim2SF y) as [s | s | | s m e]; simpl; try reflexivity;
    intros ->; reflexivity.
Qed.

(** C5.  [cohend(A, A)] is [0.0] or not-a-number, and nothing is raised.
    It is [0.0] exactly when the computed mean of [A] is finite and the
    computed pooled standard deviation is a number other than zero; in
    every other case (a zero pooled standard deviation, as for [[5, 5]], a
    sample of fewer than two observations, a mean that is not finite) it
    is not-a-number. *)
Theorem cohend_same_sample (A : list float) :
  exists v,
    yields (cohend A A) v
    /\ (v = 0%float \/ v = nan)
    /\ (v = 0%float
        <-> is_finite (mean_of A) = true
            /\ is_nan (pooled_std A A) = false
            /\ is_zero (pooled_std A A) = false).
Proof.
  exists (cohend_value A A). split; [apply cohend_yields |].
  assert (Hv : Prim2SF (cohend_value A A)
               = match Prim2SF (mean_of A) with
                 | S754_nan | S754_infinity _ => S754_nan
                 | _ => match Prim2SF (pooled_std A A) with
                        | S754_nan | S754_zero _ => S754_nan
                        | _ => S754_zero false
                        end
                 end).
  { unfold cohend_value. pose proof (sub_diag_repr (mean_of A)) as Hd.
    destruct (Prim2SF (mean_of A)) as [s | s | | s m e] eqn:Hm.
    - rewrite (float_of_spec _ 0%float Hd).
      apply zero_div_nonneg_repr, pooled_std_nonneg.
    - rewrite (float_of_spec _ nan Hd). rewrite div_spec. reflexivity.
    - rewrite (float_of_spec _ nan Hd). rewrite div_spec. reflexivity.
    - rewrite (float_of_spec _ 0%float Hd).
      apply zero_div_nonneg_repr, pooled_std_nonneg. }
  rewrite is_finite_eq, is_nan_eq, is_zero_eq.
  assert (Hz : forall x, Prim2SF x = S754_zero false -> x = 0%float)
    by (intros x Hx; apply float_of_spec; exact Hx).
  assert (Hn : forall x, Prim2SF x = S754_nan -> x = nan)
    by (intros x Hx; apply float_of_spec; exact Hx).
  assert (Hzn : forall x, Prim2SF x = S754_nan -> x <> 0%float).
  { intros x Hx ->. discriminate Hx. }
  destruct (Prim2SF (mean_of A)) as [s | s | | s m e];
    destruct (Prim2SF (pooled_std A A)) as [s' | s' | | s' m' e'];
    (split;
     [ first [ left; apply Hz; exact Hv | right; apply Hn; exact Hv ]
     | split;
       [ first [ intros _; repeat split; reflexivity
               | intros H; exfalso; exact (Hzn _ Hv H) ]
       | first [ intros _; apply Hz; exact Hv
               | intros (H1 & H2 & H3); discriminate ] ] ]).
Qed.

(** C5, the claim as written.  A sample of zero variance: nothing is
    signalled and the call returns the [0/0] value.  A sample of two
    distinct values whose squared deviations underflow: the result is
    not-a-number, not zero.  A constant sample whose computed variance is
    not zero ([[0.1, 0.1, 0.1]]: about 2.9e-34): the result is [0.0]. *)
Lemma cohend_same_sample_counterexample :
  yields (cohend [5; 5] [5; 5])%float (0 / 0)%float
  /\ (pow2 (-700) =? 3 * pow2 (-700))%float = false
     /\ yields (cohend [pow2 (-700); 3 * pow2 (-700)]
                       [pow2 (-700); 3 * pow2 (-700)])%float nan
  /\ yields (cohend [tenth; tenth; tenth] [tenth; tenth; tenth])%float
            0%float.
Proof.
  split; [run_cohend |].
  split; [vm_compute; reflexivity |].
  split; run_cohend.
Qed.

(** ** Effects of a call *)






(** ** Count, mean and variance *)

(** C8.  The result depends only on the count of each sample and on the
    mean and the variance that numpy computes for it: two pairs of samples
    that agree on these give the same result. *)
Theorem cohend_summary_determined (d1 d2 d1' d2' : list float) :
  len d1 = len d1' -> mean_of d1 = mean_of d1' -> var_of d1 = var_of d1' ->
  len d2 = len d2' -> mean_of d2 = mean_of d2' -> var_of d2 = var_of d2' ->
  exists v, yields (cohend d1 d2) v /\ yields (cohend d1' d2') v.
Proof.
  intros Hn1 Hm1 Hv1 Hn2 Hm2 Hv2. exists (cohend_value d1 d2).
  split; [apply cohend_yields |].
  replace (cohend_value d1 d2) with (cohend_value d1' d2');
    [apply cohend_yields |].
  unfold cohend_value, pooled_std, pooled_variance.
  now rewrite Hn1, Hm1, Hv1, Hn2, Hm2, Hv2.
Qed.

Lemma cohend_summary_determined_witness :
  exists v,
    yields (cohend [1; 2; 4] [0; 2])%float v
    /\ yields (cohend [4; 2; 1] [2; 0])%float v.
Proof.
  apply (cohend_summary_determined [1; 2; 4] [0; 2] [4; 2; 1] [2; 0])%float;
    vm_compute; reflexivity.
Defined.

(** C8, the claim as written: the mean and the variance that numpy
    computes depend on the order of the observations.  Reversing the first
    sample changes the result from about 0.48 to about -0.48. *)
Lemma cohend_reorder_counterexample :
  let P := [pow2 53 + 2; pow2 53 + 4; pow2 53 + 6]%float in
  let Q := [pow2 53; pow2 53 + 8]%float in
  Permutation P (rev P)
  /\ yields (cohend P Q) 0x1.ebe9e77d23f6fp-2%float
  /\ yields (cohend (rev P) Q) (-0x1.ebe9e77d23f6fp-2)%float.
Proof.
  split; [apply Permutation_rev |].
  split; run_cohend.
Qed.

(** ** Finiteness of the result *)

Lemma overflow_warned (f : flags) :
  over f = true -> In (FloatingPoint Overflow) (warnings_of f).
Proof.
  intros H. unfold warnings_of. rewrite H.
  apply in_or_app. right. apply in_or_app. left. left. reflexivity.
Qed.

Lemma subtract_overflow_warned (d1 d2 : list float) :
  over (flags_arith (mean_of d1) (mean_of d2) (mean_of d1 - mean_of d2))
  = true ->
  In (FloatingPoint Overflow) (cohend_warnings d1 d2).
Proof.
  intros H. unfold cohend_warnings. cbv zeta.
  do 8 (apply in_or_app; right). apply in_or_app. left.
  now apply overflow_warned.
Qed.

Lemma divide_overflow_warned (d1 d2 : list float) :
  over (flags_div (mean_of d1 - mean_of d2) (pooled_std d1 d2)
          (cohend_value d1 d2)) = true ->
  In (FloatingPoint Overflow) (cohend_warnings d1 d2).
Proof.
  intros H. unfold cohend_warnings. cbv zeta.
  do 9 (apply in_or_app; right).
  now apply overflow_warned.
Qed.

Lemma is_finite_cases x :
  is_nan x = false -> is_infinity x = false -> is_finite x = true.
Proof. unfold is_finite. now intros -> ->. Qed.

Lemma div_by_infinity x y :
  is_finite x = true -> is_infinity y = true -> is_finite (x / y) = true.
Proof.
  rewrite !is_finite_eq, is_infinity_eq, div_spec.
  destruct (Prim2SF x) as [sx | sx | | sx mx ex];
    destruct (Prim2SF y) as [sy | sy | | sy my ey];
    try discriminate; reflexivity.
Qed.

Lemma positive_cases x :
  (0 <? x)%float = true ->
  is_nan x = false /\ is_zero x = false
  /\ (is_infinity x = true \/ is_finite x = true).
Proof.
  rewrite zero_ltb_eq, is_nan_eq, is_zero_eq, is_infinity_eq, is_finite_eq.
  destruct (Prim2SF x) as [s | s | | s m e]; try discriminate;
    intros _; auto.
Qed.

(** C9.  When the means that numpy computes are finite and the pooled
    standard deviation [s] that the code computes is strictly positive,
    [cohend] raises nothing and divides by a non-zero [s]; the float it
    returns is finite unless an operation overflowed, in which case numpy
    issues the warning "overflow encountered"; and it is not-a-number
    only if [s] is infinite. *)
Theorem cohend_finite_or_overflow (d1 d2 : list float) :
  is_finite (mean_of d1) = true -> is_finite (mean_of d2) = true ->
  (0 <? pooled_std d1 d2)%float = true ->
  exists v,
    yields (cohend d1 d2) v
    /\ is_zero (pooled_std d1 d2) = false
    /\ (is_finite v = true
        \/ In (FloatingPoint Overflow) (cohend_warnings d1 d2))
    /\ (is_finite (pooled_std d1 d2) = true -> is_nan v = false).
Proof.
  intros Hm1 Hm2 Hs. exists (cohend_value d1 d2).
  split; [apply cohend_yields |].
  destruct (positive_cases _ Hs) as (Hsn & Hsz & Hsc).
  split; [exact Hsz |].
  pose proof (sub_finite_not_nan _ _ Hm1 Hm2) as Hdn.
  split.
  - destruct (is_infinity (mean_of d1 - mean_of d2)) eqn:Hdi.
    + right. apply subtract_overflow_warned.
      unfold flags_arith. cbn [over]. now rewrite Hdi, Hm1, Hm2.
    + pose proof (is_finite_cases _ Hdn Hdi) as Hdf.
      destruct Hsc as [Hsi | Hsf].
      * left. now apply div_by_infinity.
      * pose proof (div_not_nan _ _ Hdn Hsf Hsz) as Hvn.
        fold (cohend_value d1 d2) in Hvn.
        destruct (is_infinity (cohend_value d1 d2)) eqn:Hvi.
        -- right. apply divide_overflow_warned.
           unfold flags_div. cbn [over]. now rewrite Hvi, Hdf, Hsf, Hsz.
        -- left. now apply is_finite_cases.
  - intros Hsf. exact (div_not_nan _ _ Hdn Hsf Hsz).
Qed.

Lemma cohend_finite_or_overflow_witness :
  exists v,
    yields (cohend [1; 3] [0; 2])%float v
    /\ is_zero (pooled_std [1; 3] [0; 2])%float = false
    /\ (is_finite v = true
        \/ In (FloatingPoint Overflow) (cohend_warnings [1; 3] [0; 2])%float)
    /\ (is_finite (pooled_std [1; 3] [0; 2])%float = true
        -> is_nan v = false).
Proof.
  apply (cohend_finite_or_overflow [1; 3] [0; 2])%float;
    vm_compute; reflexivity.
Defined.

(** C9, the claim as written: two samples of two observations each whose
    pooled standard deviation is computed as about 1.5e-151, strictly
    positive and finite, on which [cohend] returns infinity: the quotient
    overflows.  And two samples on which the squared deviations underflow:
    the computed [s] is zero though the observations differ, and the
    division by zero is reached. *)
Lemma cohend_overflow_counterexample :
  (0 <? pooled_std [pow2 1000; pow2 1000] [0; pow2 (-500)])%float = true
  /\ is_finite (pooled_std [pow2 1000; pow2 1000] [0; pow2 (-500)])%float
     = true
  /\ yields (cohend [pow2 1000; pow2 1000] [0; pow2 (-500)])%float infinity
  /\ is_zero (pooled_std [pow2 (-700); 3 * pow2 (-700)]
                         [0; 2 * pow2 (-700)])%float = true
  /\ yields (cohend [pow2 (-700); 3 * pow2 (-700)]
                    [0; 2 * pow2 (-700)])%float infinity.
Proof.
  split; [vm_compute; reflexivity |].
  split; [vm_compute; reflexivity |].
  split; [run_cohend |].
  split; [vm_compute; reflexivity | run_cohend].
Qed.

(** ** Scaling and translation in binary64 *)



(** ** The result against the statistic over the reals *)

Lemma value_finite x s m e :
  Prim2SF x = S754_finite s m e ->
  value x = ((if s then -1 else 1) * IZR (Zpos m) * powerRZ 2 e)%R.
Proof. intros H. unfold value. now rewrite H. Qed.

Lemma IZR_pow2_powerRZ (c : Z) (j : nat) (e : Z) :
  (IZR (c * 2 ^ Z.of_nat j) * powerRZ 2 e
   = IZR c * powerRZ 2 (Z.of_nat j + e))%R.
Proof.
  rewrite mult_IZR, <- pow_IZR, powerRZ_add by lra.
  rewrite <- pow_powerRZ. ring.
Qed.

Lemma value_tiny_1 : value (pow2 (-700)) = (powerRZ 2 (-700) * 1)%R.
Proof.
  rewrite (value_finite _ false 4503599627370496 (-752))
    by (vm_compute; reflexivity).
  change (Zpos 4503599627370496) with (1 * 2 ^ Z.of_nat 52)%Z.
  rewrite Rmult_assoc, IZR_pow2_powerRZ.
  change (Z.of_nat 52 + -752)%Z with (-700)%Z. ring.
Qed.

Lemma value_tiny_2 : value (2 * pow2 (-700)) = (powerRZ 2 (-700) * 2)%R.
Proof.
  rewrite (value_finite _ false 4503599627370496 (-751))
    by (vm_compute; reflexivity).
  change (Zpos 4503599627370496) with (2 * 2 ^ Z.of_nat 51)%Z.
  rewrite Rmult_assoc, IZR_pow2_powerRZ.
  change (Z.of_nat 51 + -751)%Z with (-700)%Z. ring.
Qed.

Lemma value_tiny_3 : value (3 * pow2 (-700)) = (powerRZ 2 (-700) * 3)%R.
Proof.
  rewrite (value_finite _ false 6755399441055744 (-751))
    by (vm_compute; reflexivity).
  change (Zpos 6755399441055744) with (3 * 2 ^ Z.of_nat 51)%Z.
  rewrite Rmult_assoc, IZR_pow2_powerRZ.
  change (Z.of_nat 51 + -751)%Z with (-700)%Z. ring.
Qed.

Lemma value_zero : value 0 = (powerRZ 2 (-700) * 0)%R.
Proof.
  unfold value. change (Prim2SF 0) with (S754_zero false). cbv iota. ring.
Qed.

(** C1, the claim as written, with the statistic over the reals: on the
    samples [[1, 3]] and [[0, 2]] measured in units of [2^-700], each
    observation a float, the pooled variance is strictly positive and
    Cohen's d is [1 / sqrt 2], while [cohend] returns infinity: the
    squared deviations underflow to zero. *)
Lemma cohend_formula_counterexample :
  let d1 := [pow2 (-700); 3 * pow2 (-700)]%float in
  let d2 := [0; 2 * pow2 (-700)]%float in
  (0 < pooled_var (map value d1) (map value d2))%R
  /\ cohen_d (map value d1) (map value d2) = (1 / R_sqrt.sqrt 2)%R
  /\ yields (cohend d1 d2) infinity.
Proof.
  cbv zeta. cbn [map].
  rewrite value_tiny_1, value_tiny_3, value_zero, value_tiny_2.
  assert (Hk : (0 < powerRZ 2 (-700))%R) by (apply powerRZ_lt; lra).
  split; [exact (proj1 (cohen_d_a13_a02_scaled _ Hk)) |].
  split; [exact (proj2 (cohen_d_a13_a02_scaled _ Hk)) |].
  run_cohend.
Qed.

(** ** The sign of the result *)

Lemma div_sign (x y : float) :
  nonneg y ->
  match Prim2SF (x / y) with
  | S754_finite s _ _ | S754_infinity s =>
      match Prim2SF x with
      | S754_finite sx _ _ | S754_infinity sx => sx = s
      | _ => False
      end
  | _ => True
  end.
Proof.
  unfold nonneg. rewrite div_spec. unfold SF64div, SFdiv.
  destruct (Prim2SF x) as [sx | sx | | sx mx ex];
    destruct (Prim2SF y) as [sy | sy | | sy my ey];
    cbn [nonneg_spec]; intros Hy; subst; try exact I;
    try (destruct sx; reflexivity).
  destruct (SFdiv_core_binary prec emax (Z.pos mx) ex (Z.pos my) ey)
    as [[mz ez] lz].
  pose proof (round_aux_signed (xorb sx false) mz ez lz) as Hr.
  replace (xorb sx false) with sx in * by (destruct sx; reflexivity).
  destruct (binary_round_aux prec emax sx mz ez lz); cbn [signed] in Hr;
    auto.
Qed.

(** The result never has the sign opposite to the difference of the means
    that the code computes: it is positive only if that difference is
    positive and negative only if it is negative.  (It can be a zero when
    the difference is not: on [[2^700, -2^700]], [[3 * 2^700, 2^700]] it is
    [-0.0].) *)
Theorem cohend_sign_of_result (d1 d2 : list float) :
  exists v,
    yields (cohend d1 d2) v
    /\ ((0 <? v)%float = true
        -> (0 <? mean_of d1 - mean_of d2)%float = true)
    /\ ((v <? 0)%float = true
        -> (mean_of d1 - mean_of d2 <? 0)%float = true).
Proof.
  exists (cohend_value d1 d2). split; [apply cohend_yields |].
  pose proof (div_sign (mean_of d1 - mean_of d2) _ (pooled_std_nonneg d1 d2))
    as H.
  fold (cohend_value d1 d2) in H.
  rewrite !zero_ltb_eq, !ltb_zero_eq.
  destruct (Prim2SF (cohend_value d1 d2)) as [s | s | | s m e];
    destruct (Prim2SF (mean_of d1 - mean_of d2)%float)
      as [s' | s' | | s' m' e'];
    try contradiction; subst; split; auto; discriminate.
Qed.

End Binary64Facts.
